(** * lenses-go: the live (websocket) connection and the quota commands

    A shallow embedding of [ws.go] (package [lenses]) and of the two
    [delete] sub-commands of [cmd/lenses-cli/quota_command.go].

    Conventions of the embedding.
    - A Go [string] is a [string] (a sequence of bytes); [ResponseType]
      is a string, as in the source.
    - A Go [error] value is an [option error]: [None] is [nil].
    - A pointer that may be [nil] is an [option].
    - The [*LiveConnection] is a heap object mutated in place; its methods
      are functions from the object's state to its next state.
    - What the code does to the outside (a value sent on the [errors]
      channel, a call of a listener, a goroutine started) is recorded as
      data: an event trace or a field of the result.
    - The [golog] calls only log and are left out. *)

From Stdlib Require Import ZArith NArith Ascii String List Bool Lia.
From stdpp Require Import base option list strings gmap.

Local Open Scope string_scope.
Local Open Scope list_scope.

(** ** Go library functions used by the source *)

Module GoLib.

(** [strings.HasPrefix]. *)
Fixpoint HasPrefix (s prefix : string) {struct prefix} : bool :=
  match prefix, s with
  | EmptyString, _ => true
  | String _ _, EmptyString => false
  | String p prefix', String c s' => if Ascii.eqb p c then HasPrefix s' prefix' else false
  end.

(** [strings.Contains]. *)
Fixpoint Contains (s substr : string) : bool :=
  HasPrefix s substr ||
  match s with
  | EmptyString => false
  | String _ s' => Contains s' substr
  end.

(** [strings.Replace s old new n] for a non-empty [old] and [n >= 0]: the
    first [n] non-overlapping instances of [old], scanning from the left,
    are replaced by [new]. [skip] counts the bytes of a replaced instance
    that are still to be passed over. *)
Fixpoint replaceFrom (skip n : nat) (old new s : string) : string :=
  match s with
  | EmptyString => EmptyString
  | String c s' =>
      match skip with
      | S k => replaceFrom k n old new s'
      | O =>
          match n with
          | O => s
          | S n' =>
              if HasPrefix s old
              then new +:+ replaceFrom (String.length old - 1) n' old new s'
              else String c (replaceFrom 0 n old new s')
          end
      end
  end.

Definition Replace (s old new : string) (n : nat) : string :=
  replaceFrom 0 n old new s.

(** [net/url]: [shouldEscape c encodeQueryComponent]. Letters, digits and
    [- _ . ~] stay; every other byte, the reserved ones included, is
    escaped. *)
Definition isAlnum (c : ascii) : bool :=
  let n := nat_of_ascii c in
  (Nat.leb 97 n && Nat.leb n 122) || (Nat.leb 65 n && Nat.leb n 90)
  || (Nat.leb 48 n && Nat.leb n 57).

Definition shouldEscape (c : ascii) : bool :=
  if isAlnum c then false
  else if Ascii.eqb c "-" || Ascii.eqb c "_" || Ascii.eqb c "." || Ascii.eqb c "~"
       then false
       else true.

Definition upperhex : string := "0123456789ABCDEF".

Definition hexDigit (n : nat) : ascii :=
  match String.get n upperhex with
  | Some d => d
  | None => "0"%char
  end.

(** [url.QueryEscape]: a space becomes [+], any other escaped byte [c]
    becomes [%] followed by [upperhex[c>>4]] and [upperhex[c&15]]. *)
Fixpoint QueryEscape (s : string) : string :=
  match s with
  | EmptyString => EmptyString
  | String c s' =>
      if shouldEscape c then
        if Ascii.eqb c " "
        then String "+" (QueryEscape s')
        else String "%" (String (hexDigit (nat_of_ascii c / 16))
                          (String (hexDigit (nat_of_ascii c mod 16)) (QueryEscape s')))
      else String c (QueryEscape s')
  end.

End GoLib.


(** ** The data model of [ws.go] *)

(** A Go [error] value, by its dynamic type: [*net.OpError] (the one type
    [readLoop] asks for), the [*errors.errorString] that [fmt.Errorf]
    builds when its format has no [%w], or any other type. [Error] is the
    method [Error()]. *)
Inductive error : Type :=
  | NetOpError (msg : string)
  | ErrorString (msg : string)
  | OtherError (msg : string).

Definition Error (e : error) : string :=
  match e with
  | NetOpError msg | ErrorString msg | OtherError msg => msg
  end.

(** [fmt.Errorf] with the verbs [%s] and [%v] only: the formatted text. *)
Definition Errorf (text : string) : error := ErrorString text.

Definition ResponseType := string.

Definition WildcardResponse : ResponseType := "*".
Definition ErrorResponse : ResponseType := "ERROR".
Definition InvalidRequestResponse : ResponseType := "INVALIDREQUEST".
Definition RecordMessageResponse : ResponseType := "RECORD".
Definition HeartbeatResponse : ResponseType := "HEARTBEAT".
Definition SuccessResponse : ResponseType := "SUCCESS".
Definition StatsResponse : ResponseType := "STATS".
Definition EndResponse : ResponseType := "END".

Record MetaData : Type := {
  Timestamp : Z;
  KeySize : Z;
  ValueSize : Z;
  Partition : Z;
  Offset : Z
}.

Record Data : Type := {
  Key : string;       (* json.RawMessage *)
  Value : string;     (* json.RawMessage *)
  Metadata : MetaData;
  RowNum : Z
}.

Record LiveResponse : Type := {
  Type_ : ResponseType;
  Data_ : Data
}.

Record LiveConfiguration : Type := {
  Host : string;
  Token : string;
  Debug : bool;
  SQL : string;
  Live : bool;
  Stats : Z;
  HandshakeTimeout : Z;   (* time.Duration, in nanoseconds *)
  ReadBufferSize : Z;
  WriteBufferSize : Z
}.

Definition Second : Z := 1000000000.

Definition set_Host (h : string) (config : LiveConfiguration) : LiveConfiguration :=
  {| Host := h; Token := Token config; Debug := Debug config; SQL := SQL config;
     Live := Live config; Stats := Stats config;
     HandshakeTimeout := HandshakeTimeout config;
     ReadBufferSize := ReadBufferSize config;
     WriteBufferSize := WriteBufferSize config |}.

Definition set_HandshakeTimeout (d : Z) (config : LiveConfiguration) : LiveConfiguration :=
  {| Host := Host config; Token := Token config; Debug := Debug config; SQL := SQL config;
     Live := Live config; Stats := Stats config;
     HandshakeTimeout := d;
     ReadBufferSize := ReadBufferSize config;
     WriteBufferSize := WriteBufferSize config |}.

(** [LiveListener]: [func(LiveResponse) error]. A listener is taken to
    return, and to act on the connection only through what it returns. *)
Definition LiveListener : Type := LiveResponse -> option error.

(** The transport, [*websocket.Conn], as far as the source uses it: its
    [Close] method. [closeCalls] counts the calls of [Close] (the releases
    of the transport) and [closeErr] is what each of them returns; what
    [ReadJSON] returns is given to [readLoop] from outside. *)
Record Conn : Type := {
  closeCalls : nat;
  closeErr : option error
}.

Definition Conn_Close (k : Conn) : Conn * option error :=
  ({| closeCalls := S (closeCalls k); closeErr := closeErr k |}, closeErr k).

(** [LiveConnection]. [receiveStop] is [true] once the channel is closed;
    [closed] is the [uint32] flag; [conn = None] is the nil pointer. The
    lock [mu] guards [listeners] and has no state of its own here; the
    values sent on [errors] are events of the trace (see [Event]). *)
Record LiveConnection : Type := {
  conn : option Conn;
  config : LiveConfiguration;
  receiveStop : bool;
  closed : N;
  authToken : string;
  endpoint : string;
  listeners : gmap ResponseType (list LiveListener)
}.

Definition set_conn (k : option Conn) (c : LiveConnection) : LiveConnection :=
  {| conn := k; config := config c; receiveStop := receiveStop c; closed := closed c;
     authToken := authToken c; endpoint := endpoint c; listeners := listeners c |}.

Definition set_receiveStop (b : bool) (c : LiveConnection) : LiveConnection :=
  {| conn := conn c; config := config c; receiveStop := b; closed := closed c;
     authToken := authToken c; endpoint := endpoint c; listeners := listeners c |}.

Definition set_closed (v : N) (c : LiveConnection) : LiveConnection :=
  {| conn := conn c; config := config c; receiveStop := receiveStop c; closed := v;
     authToken := authToken c; endpoint := endpoint c; listeners := listeners c |}.

Definition set_listeners (m : gmap ResponseType (list LiveListener))
    (c : LiveConnection) : LiveConnection :=
  {| conn := conn c; config := config c; receiveStop := receiveStop c; closed := closed c;
     authToken := authToken c; endpoint := endpoint c; listeners := m |}.

(** The result of a call that may panic. *)
Inductive outcome (A : Type) : Type :=
  | Returned (a : A)
  | Panicked (reason : string).
Arguments Returned {A} a.
Arguments Panicked {A} reason.

(** ** Opening the connection *)

(** [websocket.Dialer.Dial]: the handshake with the server at an endpoint
    succeeds with a connection or fails with an error. *)
Definition Dialer : Type := string -> Conn + error.

Inductive Goroutine : Type := GoReadLoop.

(** What [start] leaves behind: the connection object, the goroutines it
    started and the error it returns. *)
Record Started : Type := {
  started_conn : LiveConnection;
  started_goroutines : list Goroutine;
  started_err : option error
}.

Definition start (dial : Dialer) (c : LiveConnection) : Started :=
  match dial (endpoint c) with
  | inr err =>
      let err := Errorf ("connect failure for [" +:+ Host (config c) +:+ "]: " +:+ Error err) in
      {| started_conn := c; started_goroutines := []; started_err := Some err |}
  | inl k =>
      let c := set_conn (Some k) c in
      {| started_conn := c; started_goroutines := [GoReadLoop]; started_err := None |}
  end.

(** The two results of [OpenLiveConnection], and the goroutines running
    when it returns. The first result is a pointer: [None] would be nil. *)
Record Opened : Type := {
  opened_conn : option LiveConnection;
  opened_err : option error;
  opened_goroutines : list Goroutine
}.

Definition OpenLiveConnection (dial : Dialer) (config : LiveConfiguration) : Opened :=
  let config :=
    if (HandshakeTimeout config =? 0)%Z
    then set_HandshakeTimeout (45 * Second)%Z config
    else config in
  let config := set_Host (GoLib.Replace (Host config) "https://" "wss://" 1) config in
  let config := set_Host (GoLib.Replace (Host config) "https://" "ws://" 1) config in
  let query := GoLib.QueryEscape (SQL config) in
  let endpoint :=
    Host config +:+ "/api/ws/v1/sql/execute?sql=" +:+ query +:+ "&token=" +:+ Token config in
  let endpoint :=
    if Live config
    then Host config +:+ "/api/ws/v1/sql/execute?sql=" +:+ query +:+ "&token="
         +:+ Token config +:+ "&live=true"
    else endpoint in
  let c := {| conn := None; config := config; receiveStop := false; closed := 0%N;
              authToken := ""; endpoint := endpoint; listeners := ∅ |} in
  let r := start dial c in
  {| opened_conn := Some (started_conn r);
     opened_err := started_err r;
     opened_goroutines := started_goroutines r |}.

(** The endpoint that [OpenLiveConnection] dials: the [endpoint] field of
    the connection it returns. *)
Definition builtEndpoint (dial : Dialer) (config : LiveConfiguration) : option string :=
  endpoint <$> opened_conn (OpenLiveConnection dial config).

(** What the handshake of [OpenLiveConnection] gives: the dialer's answer
    at the endpoint built from the configuration. *)
Definition handshake (dial : Dialer) (config : LiveConfiguration) : option (Conn + error) :=
  dial <$> builtEndpoint dial config.

(** ** The listeners *)

(** The locked section of [On]:
    [c.listeners[typ] = append(c.listeners[typ], cb)]; a missing key reads
    as the nil slice. *)
Definition appendListener (typ : ResponseType) (cb : LiveListener)
    (c : LiveConnection) : LiveConnection :=
  set_listeners (<[typ := default [] (listeners c !! typ) ++ [cb]]> (listeners c)) c.

(** [On]. Under [WildcardResponse] it calls [OnError], ..., [OnEnd], each
    of which calls [On] again with its own type; none of those types is
    the wildcard, so each of the seven calls runs the locked section. *)
Definition On (typ : ResponseType) (cb : LiveListener) (c : LiveConnection) : LiveConnection :=
  if decide (typ = WildcardResponse) then
    let c := appendListener ErrorResponse cb c in
    let c := appendListener InvalidRequestResponse cb c in
    let c := appendListener RecordMessageResponse cb c in
    let c := appendListener HeartbeatResponse cb c in
    let c := appendListener SuccessResponse cb c in
    let c := appendListener StatsResponse cb c in
    appendListener EndResponse cb c
  else appendListener typ cb c.

Definition OnError (cb : LiveListener) := On ErrorResponse cb.
Definition OnInvalidRequest (cb : LiveListener) := On InvalidRequestResponse cb.
Definition OnRecordMessage (cb : LiveListener) := On RecordMessageResponse cb.
Definition OnHeartbeat (cb : LiveListener) := On HeartbeatResponse cb.
Definition OnSuccess (cb : LiveListener) := On SuccessResponse cb.
Definition OnStats (cb : LiveListener) := On StatsResponse cb.
Definition OnEnd (cb : LiveListener) := On EndResponse cb.

(** The seven types a message of the server can have. *)
Definition concreteTypes : list ResponseType :=
  [ErrorResponse; InvalidRequestResponse; RecordMessageResponse; HeartbeatResponse;
   SuccessResponse; StatsResponse; EndResponse].

(** The listeners of a type, in the order [readLoop] ranges over them. *)
Definition subscribers (c : LiveConnection) (typ : ResponseType) : list LiveListener :=
  default [] (listeners c !! typ).

(** A sequence of registrations, applied in order. *)
Definition registerAll (regs : list (ResponseType * LiveListener))
    (c : LiveConnection) : LiveConnection :=
  foldl (fun c r => On r.1 r.2 c) c regs.

(** ** Close *)

(** [Close]. Closing a closed channel panics, and so does the call of
    [Close] on a nil [*websocket.Conn], which reads a field of it. *)
Definition Close (c : LiveConnection) : LiveConnection * outcome (option error) :=
  if (0 <? closed c)%N then (c, Returned None)
  else
    let c := set_closed 1%N c in
    if receiveStop c then (c, Panicked "close of closed channel")
    else
      let c := set_receiveStop true c in
      match conn c with
      | None => (c, Panicked "invalid memory address or nil pointer dereference")
      | Some k =>
          let (k', err) := Conn_Close k in
          (set_conn (Some k') c, Returned err)
      end.

(** The check that [Close] makes of the flag. *)
Definition isClosed (c : LiveConnection) : bool := (0 <? closed c)%N.

(** [n] calls of [Close] in sequence, with what each call gave. A panic
    is taken to be recovered by the caller, who goes on calling. *)
Fixpoint CloseTimes (n : nat) (c : LiveConnection)
    : LiveConnection * list (outcome (option error)) :=
  match n with
  | O => (c, [])
  | S n' =>
      let (c1, r) := Close c in
      let (c2, rs) := CloseTimes n' c1 in
      (c2, r :: rs)
  end.

(** The number of releases of the transport so far. *)
Definition releases (c : LiveConnection) : nat :=
  match conn c with
  | Some k => closeCalls k
  | None => 0
  end.

(** ** The read loop *)

(** What the loop does to the outside: a value sent on [c.errors] (by
    [sendErr]; the channel has no buffer, so the send completes when the
    owner of the connection receives from [Err()]), and a call of a
    listener with a response. *)
Inductive Event : Type :=
  | Sent (err : error)
  | Called (cb : LiveListener) (resp : LiveResponse).

(** What one call of [c.conn.ReadJSON(&resp)] gives. *)
Inductive ReadResult : Type :=
  | ReadOk (resp : LiveResponse)
  | ReadErr (err : error).

(** The [for _, cb := range callbacks] loop of [readLoop]. *)
Fixpoint fire (callbacks : list LiveListener) (resp : LiveResponse) : list Event :=
  match callbacks with
  | [] => []
  | cb :: callbacks' =>
      Called cb resp ::
      match cb resp with
      | Some err => Sent err :: fire callbacks' resp
      | None => fire callbacks' resp
      end
  end.

(** The type assertion of [err] to a pointer to [net.OpError]. *)
Definition isNetOpError (err : error) : bool :=
  match err with
  | NetOpError _ => true
  | ErrorString _ | OtherError _ => false
  end.

(** The [default] branch of the [select]: one read and what follows it. *)
Definition iteration (c : LiveConnection) (r : ReadResult) : list Event :=
  match r with
  | ReadErr err =>
      if isNetOpError err then [Sent err]
      else [Sent (Errorf ("live: read json: [" +:+ Error err +:+ "]"))]
  | ReadOk resp =>
      match listeners c !! Type_ resp with
      | Some callbacks => fire callbacks resp
      | None => []
      end
  end.

(** The loop runs in its own goroutine, next to the owner of the
    connection. A schedule lists, in the order they happen, the turns of
    the loop ([Read r]: the loop goes once round, and [ReadJSON] gives [r])
    and the calls of the owner that fall between two turns. A registration
    that falls inside a turn acts as one after it, since the turn ranges
    over the slice it read under the lock. What a call of the owner returns
    goes to the owner and is no event of the loop. *)
Inductive Step : Type :=
  | Read (r : ReadResult)
  | CallOn (typ : ResponseType) (cb : LiveListener)
  | CallClose.

(** A run of the loop: the connection at the end, the events in order, and
    what the deferred [Close] gave if the loop has returned ([None]: it is
    still going round, waiting for the next frame). *)
Record Run : Type := {
  run_conn : LiveConnection;
  run_trace : list Event;
  run_exit : option (outcome (option error))
}.

Definition before (evs : list Event) (r : Run) : Run :=
  {| run_conn := run_conn r; run_trace := evs ++ run_trace r; run_exit := run_exit r |}.

Fixpoint readLoop (sched : list Step) (c : LiveConnection) : Run :=
  match sched with
  | [] => {| run_conn := c; run_trace := []; run_exit := None |}
  | CallOn typ cb :: sched' => readLoop sched' (On typ cb c)
  | CallClose :: sched' => readLoop sched' (Close c).1
  | Read r :: sched' =>
      if receiveStop c then
        (* case <-c.receiveStop: return; then the deferred c.Close() *)
        let (c', out) := Close c in
        {| run_conn := c'; run_trace := []; run_exit := Some out |}
      else before (iteration c r) (readLoop sched' c)
  end.

(** The calls of listeners in a trace, in order. *)
Fixpoint calls (evs : list Event) : list (LiveListener * LiveResponse) :=
  match evs with
  | [] => []
  | Called cb resp :: evs' => (cb, resp) :: calls evs'
  | Sent _ :: evs' => calls evs'
  end.

(** The values sent on [c.errors] in a trace, in order. *)
Fixpoint sent (evs : list Event) : list error :=
  match evs with
  | [] => []
  | Sent err :: evs' => err :: sent evs'
  | Called _ _ :: evs' => sent evs'
  end.

(** Whether a registration [On r.1 r.2] adds its callback to the listeners
    of the type [t], and the callbacks that a sequence of registrations
    adds to the listeners of [t], in the order of the registrations. *)
Definition registersFor (t : ResponseType) (r : ResponseType * LiveListener) : bool :=
  if decide (r.1 = WildcardResponse)
  then bool_decide (t ∈ concreteTypes)
  else bool_decide (r.1 = t).

Definition registeredFor (t : ResponseType)
    (regs : list (ResponseType * LiveListener)) : list LiveListener :=
  (filter (fun r => registersFor t r = true) regs).*2.

(** A schedule in which the loop reads the given frames, one per turn, and
    the owner does nothing. *)
Definition arrivals (frames : list LiveResponse) : list Step :=
  map (fun resp => Read (ReadOk resp)) frames.

(** ** Close, one memory access at a time *)

(** [Close] is reached from [Wait], from the deferred call of [readLoop]
    and from the owner, in different goroutines. Its four accesses to the
    connection are the atomic load, the atomic store, the [close] of the
    channel and [c.conn.Close()]; a goroutine inside [Close] stands before
    one of them or has finished. *)
Inductive ClosePoint : Type :=
  | AtLoad
  | AtStore
  | AtCloseChan
  | AtConnClose
  | Finished (r : outcome (option error)).

Definition closeStep (p : ClosePoint) (c : LiveConnection) : ClosePoint * LiveConnection :=
  match p with
  | AtLoad => if (0 <? closed c)%N then (Finished (Returned None), c) else (AtStore, c)
  | AtStore => (AtCloseChan, set_closed 1%N c)
  | AtCloseChan =>
      if receiveStop c then (Finished (Panicked "close of closed channel"), c)
      else (AtConnClose, set_receiveStop true c)
  | AtConnClose =>
      match conn c with
      | None => (Finished (Panicked "invalid memory address or nil pointer dereference"), c)
      | Some k =>
          let (k', err) := Conn_Close k in
          (Finished (Returned err), set_conn (Some k') c)
      end
  | Finished r => (Finished r, c)
  end.

(** Two goroutines inside [Close] on the same connection. *)
Inductive Who : Type := G1 | G2.

Record Racing : Type := {
  first : ClosePoint;
  second : ClosePoint;
  shared : LiveConnection
}.

Definition raceStep (st : Racing) (w : Who) : Racing :=
  match w with
  | G1 =>
      let (p, c) := closeStep (first st) (shared st) in
      {| first := p; second := second st; shared := c |}
  | G2 =>
      let (p, c) := closeStep (second st) (shared st) in
      {| first := first st; second := p; shared := c |}
  end.

Definition race (sched : list Who) (c : LiveConnection) : Racing :=
  foldl raceStep {| first := AtLoad; second := AtLoad; shared := c |} sched.

(** A goroutine is in the release sequence once it is past the check of
    the flag and has not finished. *)
Definition releasing (p : ClosePoint) : bool :=
  match p with
  | AtStore | AtCloseChan | AtConnClose => true
  | AtLoad | Finished _ => false
  end.

(** ** The quota [delete] commands of the command line *)

Module QuotaCommand.

Section Commands.

(** The type [lenses.QuotaConfig] and the constant
    [errResourceNotFoundMessage] are declared elsewhere in the
    repository. *)
Variable QuotaConfig : Type.
Variable errResourceNotFoundMessage : string.

Record createQuotaPayload : Type := {
  Config : QuotaConfig;
  User : string;
  ClientID : string
}.

(** The operations of the API client that the two commands call. *)
Inductive ClientCall : Type :=
  | DeleteQuotaForUserAllClients (user : string) (propertiesToRemove : list string)
  | DeleteQuotaForUserClient (user clientID : string) (propertiesToRemove : list string)
  | DeleteQuotaForUser (user : string) (propertiesToRemove : list string)
  | DeleteQuotaForAllUsers (propertiesToRemove : list string)
  | DeleteQuotaForClient (clientID : string) (propertiesToRemove : list string)
  | DeleteQuotaForAllClients (propertiesToRemove : list string).

(** What a command hands to the [bite] library, with the format already
    filled in: a text registered with [bite.FriendlyError] for an error
    code, or a text given to [bite.PrintInfo] to be shown to the user. *)
Inductive Output : Type :=
  | FriendlyError (code text : string)
  | PrintInfo (text : string).

(** A run of [RunE]: the call made to the client, the outputs in order and
    the returned error. [bite.PrintInfo] is taken to return nil. *)
Record Ran : Type := {
  ran_call : ClientCall;
  ran_output : list Output;
  ran_err : option error
}.

Definition actionMsgOf (args : list string) : string :=
  if decide (0 < length args) then "update" else "delete".

(** [RunE] of [quota users delete]. *)
Definition usersDelete (client : ClientCall -> option error)
    (quota : createQuotaPayload) (args : list string) : Ran :=
  let actionMsg := actionMsgOf args in
  let user := User quota in
  let clientID := ClientID quota in
  if negb (String.eqb user "") then
    if negb (String.eqb clientID "") then
      if String.eqb clientID "all" || String.eqb clientID "*" then
        let call := DeleteQuotaForUserAllClients user args in
        match client call with
        | Some err =>
            {| ran_call := call;
               ran_output :=
                 [FriendlyError errResourceNotFoundMessage
                    ("unable to " +:+ actionMsg +:+ ", quota for user: '" +:+ user
                     +:+ "' does not exist")];
               ran_err := Some err |}
        | None =>
            {| ran_call := call;
               ran_output := [PrintInfo ("Quota for user " +:+ user +:+ " deleted for all clients")];
               ran_err := None |}
        end
      else
        let call := DeleteQuotaForUserClient user clientID args in
        match client call with
        | Some err =>
            {| ran_call := call;
               ran_output :=
                 [FriendlyError errResourceNotFoundMessage
                    ("unable to " +:+ actionMsg +:+ ", quota for user: '" +:+ user
                     +:+ "' and client: '" +:+ clientID +:+ "' does not exist")];
               ran_err := Some err |}
        | None =>
            {| ran_call := call;
               ran_output :=
                 [PrintInfo ("Quota for user " +:+ user +:+ " deleted for client " +:+ clientID)];
               ran_err := None |}
        end
    else
      let call := DeleteQuotaForUser user args in
      match client call with
      | Some err =>
          {| ran_call := call;
             ran_output :=
               [FriendlyError errResourceNotFoundMessage
                  ("unable to " +:+ actionMsg +:+ ", quota for user: '" +:+ user
                   +:+ "' does not exist")];
             ran_err := Some err |}
      | None =>
          {| ran_call := call;
             ran_output := [PrintInfo ("Quota for user " +:+ user +:+ " " +:+ actionMsg +:+ "d")];
             ran_err := None |}
      end
  else
    let call := DeleteQuotaForAllUsers args in
    match client call with
    | Some err => {| ran_call := call; ran_output := []; ran_err := Some err |}
    | None =>
        {| ran_call := call;
           ran_output := [PrintInfo ("Default user quota " +:+ actionMsg +:+ "d")];
           ran_err := None |}
    end.

(** [RunE] of [quota clients delete]. *)
Definition clientsDelete (client : ClientCall -> option error)
    (quota : createQuotaPayload) (args : list string) : Ran :=
  let actionMsg := actionMsgOf args in
  let id := ClientID quota in
  if negb (String.eqb id "") && negb (String.eqb id "all") && negb (String.eqb id "*") then
    let call := DeleteQuotaForClient id args in
    match client call with
    | Some err =>
        {| ran_call := call;
           ran_output :=
             [FriendlyError errResourceNotFoundMessage
                ("unable to " +:+ actionMsg +:+ ", quota for client: '" +:+ id
                 +:+ "' does not exist")];
           ran_err := Some err |}
    | None =>
        {| ran_call := call;
           ran_output := [PrintInfo ("Quota for client " +:+ id +:+ " " +:+ actionMsg +:+ "d")];
           ran_err := None |}
    end
  else
    let call := DeleteQuotaForAllClients args in
    match client call with
    | Some err => {| ran_call := call; ran_output := []; ran_err := Some err |}
    | None =>
        {| ran_call := call;
           ran_output := [PrintInfo ("Default client quota " +:+ actionMsg +:+ "d")];
           ran_err := None |}
    end.

(** The six entities a delete can be aimed at. *)
Inductive Target : Type :=
  | DefaultUserQuota
  | SpecificUser
  | UserAndClient
  | UserAndAllClients
  | SpecificClient
  | DefaultClientQuota.

(** The target that the call made to the client is for. *)
Definition targetOf (call : ClientCall) : Target :=
  match call with
  | DeleteQuotaForUserAllClients _ _ => UserAndAllClients
  | DeleteQuotaForUserClient _ _ _ => UserAndClient
  | DeleteQuotaForUser _ _ => SpecificUser
  | DeleteQuotaForAllUsers _ => DefaultUserQuota
  | DeleteQuotaForClient _ _ => SpecificClient
  | DeleteQuotaForAllClients _ => DefaultClientQuota
  end.

(** The texts shown to the user by a run. *)
Definition shown (r : Ran) : list string :=
  omap (fun o => match o with PrintInfo text => Some text | FriendlyError _ _ => None end)
       (ran_output r).

End Commands.

Arguments User {QuotaConfig} _.
Arguments ClientID {QuotaConfig} _.
Arguments Config {QuotaConfig} _.
Arguments usersDelete {QuotaConfig} _ _ _ _.
Arguments clientsDelete {QuotaConfig} _ _ _ _.

End QuotaCommand.

(** ** The quota [set] commands of the command line *)

Module QuotaSet.

Section Commands.

Variable QuotaConfig : Type.

(** [bite.CheckRequiredFlags] on the pair of the flag [quota-config] and
    its value: nil, or the error that names the flag that is not set. *)
Variable CheckRequiredFlags : string * string -> option error.

(** The operations of the API client that the two commands call. *)
Inductive ClientCall : Type :=
  | CreateOrUpdateQuotaForUserAllClients (user : string) (config : QuotaConfig)
  | CreateOrUpdateQuotaForUserClient (user clientID : string) (config : QuotaConfig)
  | CreateOrUpdateQuotaForUser (user : string) (config : QuotaConfig)
  | CreateOrUpdateQuotaForAllUsers (config : QuotaConfig)
  | CreateOrUpdateQuotaForClient (clientID : string) (config : QuotaConfig)
  | CreateOrUpdateQuotaForAllClients (config : QuotaConfig).

(** A run of [RunE]: the call made to the client, if one was made, the
    texts given to [bite.PrintInfo] and the returned error. *)
Record Ran : Type := {
  ran_call : option ClientCall;
  ran_shown : list string;
  ran_err : option error
}.

(** The end of each branch: the call, and the text on success. *)
Definition finish (client : ClientCall -> option error) (call : ClientCall)
    (text : string) : Ran :=
  match client call with
  | Some err => {| ran_call := Some call; ran_shown := []; ran_err := Some err |}
  | None => {| ran_call := Some call; ran_shown := [text]; ran_err := None |}
  end.

(** [RunE] of [quota users set]. *)
Definition usersSet (client : ClientCall -> option error) (configRaw : string)
    (quota : QuotaCommand.createQuotaPayload QuotaConfig) : Ran :=
  match CheckRequiredFlags ("quota-config", configRaw) with
  | Some err => {| ran_call := None; ran_shown := []; ran_err := Some err |}
  | None =>
      let user := QuotaCommand.User quota in
      if negb (String.eqb user "") then
        let clientID := QuotaCommand.ClientID quota in
        if negb (String.eqb clientID "") then
          if String.eqb clientID "all" || String.eqb clientID "*" then
            finish client
              (CreateOrUpdateQuotaForUserAllClients user (QuotaCommand.Config quota))
              ("Quota for user " +:+ user +:+ " and all clients set")
          else
            finish client
              (CreateOrUpdateQuotaForUserClient user clientID (QuotaCommand.Config quota))
              ("Quota for user " +:+ user +:+ " and client " +:+ clientID +:+ " set")
        else
          finish client (CreateOrUpdateQuotaForUser user (QuotaCommand.Config quota))
            ("Quota for user " +:+ user +:+ " created/updated")
      else
        finish client (CreateOrUpdateQuotaForAllUsers (QuotaCommand.Config quota))
          "Default user quota created/updated"
  end.

(** [RunE] of [quota clients set]. *)
Definition clientsSet (client : ClientCall -> option error) (configRaw : string)
    (quota : QuotaCommand.createQuotaPayload QuotaConfig) : Ran :=
  match CheckRequiredFlags ("quota-config", configRaw) with
  | Some err => {| ran_call := None; ran_shown := []; ran_err := Some err |}
  | None =>
      let id := QuotaCommand.ClientID quota in
      if negb (String.eqb id "") && negb (String.eqb id "all") && negb (String.eqb id "*") then
        finish client (CreateOrUpdateQuotaForClient id (QuotaCommand.Config quota))
          ("Quota for client " +:+ id +:+ " created/updated")
      else
        finish client (CreateOrUpdateQuotaForAllClients (QuotaCommand.Config quota))
          "Default client quota created/updated"
  end.

(** The target that a call is for. *)
Definition targetOf (call : ClientCall) : QuotaCommand.Target :=
  match call with
  | CreateOrUpdateQuotaForUserAllClients _ _ => QuotaCommand.UserAndAllClients
  | CreateOrUpdateQuotaForUserClient _ _ _ => QuotaCommand.UserAndClient
  | CreateOrUpdateQuotaForUser _ _ => QuotaCommand.SpecificUser
  | CreateOrUpdateQuotaForAllUsers _ => QuotaCommand.DefaultUserQuota
  | CreateOrUpdateQuotaForClient _ _ => QuotaCommand.SpecificClient
  | CreateOrUpdateQuotaForAllClients _ => QuotaCommand.DefaultClientQuota
  end.

End Commands.

Arguments ran_call {QuotaConfig} _.
Arguments ran_shown {QuotaConfig} _.
Arguments ran_err {QuotaConfig} _.
Arguments usersSet {QuotaConfig} _ _ _ _.
Arguments clientsSet {QuotaConfig} _ _ _ _.
Arguments targetOf {QuotaConfig} _.

End QuotaSet.


(** ** Schedules and traces: notions used to state the properties *)

(** A schedule in which the loop makes the given reads, one per turn, and
    the owner does nothing. *)
Definition reads (rs : list ReadResult) : list Step := map Read rs.



(** The errors that one read gives rise to: the read's own error, as the
    loop forwards it, or the errors that the listeners of the frame's type
    return, in the order of the listeners. *)
Definition errorsOf (c : LiveConnection) (r : ReadResult) : list error :=
  match r with
  | ReadErr err =>
      [if isNetOpError err then err
       else ErrorString ("live: read json: [" +:+ Error err +:+ "]")]
  | ReadOk resp => omap (fun cb => cb resp) (subscribers c (Type_ resp))
  end.


(** The bytes that [url.QueryEscape] lets through or writes: letters,
    digits, [- _ . ~], and the [+] and [%] of the escapes. *)
Definition querySafe (a : ascii) : bool :=
  GoLib.isAlnum a
  || Ascii.eqb a "-" || Ascii.eqb a "_" || Ascii.eqb a "." || Ascii.eqb a "~"
  || Ascii.eqb a "+" || Ascii.eqb a "%".

(** The number of goroutines of a race that stand before [c.conn.Close()]. *)
Definition atConnClose (p : ClosePoint) : nat :=
  match p with
  | AtConnClose => 1
  | AtLoad | AtStore | AtCloseChan | Finished _ => 0
  end.

(** While the channel is open no goroutine of a race stands before
    [c.conn.Close()] and the transport has its [r0] releases; once it is
    closed, the goroutines that stand there and the releases made come to
    at most [r0 + 1]. *)
Definition releaseBudget (r0 : nat) (st : Racing) : Prop :=
  if receiveStop (shared st)
  then atConnClose (first st) + atConnClose (second st) + releases (shared st) <= S r0
       /\ r0 <= releases (shared st)
  else atConnClose (first st) + atConnClose (second st) = 0
       /\ releases (shared st) = r0.

(** A configuration whose host has no secure scheme. *)
Definition plainConfig : LiveConfiguration :=
  {| Host := "http://localhost:24015"; Token := "abc"; Debug := false;
     SQL := "SELECT * FROM t"; Live := false; Stats := 0;
     HandshakeTimeout := 0; ReadBufferSize := 0; WriteBufferSize := 0 |}.

(** ** Sample values *)

(** The configuration of the endpoint example. *)
Definition sampleConfig : LiveConfiguration :=
  {| Host := "https://example.com"; Token := "abc"; Debug := false;
     SQL := "SELECT * FROM t"; Live := true; Stats := 0;
     HandshakeTimeout := 0; ReadBufferSize := 0; WriteBufferSize := 0 |}.

(** A server that accepts every handshake, and one that refuses all. *)
Definition accepting : Dialer := fun _ => inl {| closeCalls := 0; closeErr := None |}.
Definition refusing : Dialer := fun _ => inr (OtherError "bad handshake").

(** The session that [OpenLiveConnection] gives against [accepting]. *)
Definition sampleSession : LiveConnection :=
  default
    {| conn := None; config := sampleConfig; receiveStop := false; closed := 0%N;
       authToken := ""; endpoint := ""; listeners := ∅ |}
    (opened_conn (OpenLiveConnection accepting sampleConfig)).

(** The connection that [OpenLiveConnection] gives against [refusing]. *)
Definition failedSession : LiveConnection :=
  default
    {| conn := None; config := sampleConfig; receiveStop := false; closed := 0%N;
       authToken := ""; endpoint := ""; listeners := ∅ |}
    (opened_conn (OpenLiveConnection refusing sampleConfig)).

Definition sampleResponse (typ : ResponseType) : LiveResponse :=
  {| Type_ := typ;
     Data_ := {| Key := ""; Value := "";
                 Metadata := {| Timestamp := 0; KeySize := 0; ValueSize := 0;
                                Partition := 0; Offset := 0 |};
                 RowNum := 0 |} |}.

(** A listener that accepts every message, and one that fails on each. *)
Definition quiet : LiveListener := fun _ => None.
Definition faulty : LiveListener := fun _ => Some (OtherError "listener failed").

(** * Properties *)

(** ** The Go library functions *)

Example QueryEscape_sql :
  GoLib.QueryEscape "SELECT * FROM t" = "SELECT+%2A+FROM+t".
Proof. reflexivity. Qed.

Example Replace_first_only :
  GoLib.Replace "https://a/https://b" "https://" "wss://" 1 = "wss://a/https://b".
Proof. reflexivity. Qed.

Lemma append_String (a : ascii) (s t : string) : String a s +:+ t = String a (s +:+ t).
Proof. reflexivity. Qed.

Lemma append_Empty (t : string) : "" +:+ t = t.
Proof. reflexivity. Qed.

(** Evaluates the appends whose left operand is a literal. *)
Ltac eval_append := rewrite ?append_String, ?append_Empty.

Lemma replaceFrom_done (old new s : string) : GoLib.replaceFrom 0 0 old new s = s.
Proof. by destruct s. Qed.

(** A host that starts with [https://] has that prefix replaced by the
    first [Replace], and the second one leaves the new prefix alone. *)
Lemma Replace_https (rest : string) :
  GoLib.Replace (GoLib.Replace ("https://" +:+ rest) "https://" "wss://" 1)
                "https://" "ws://" 1
  = "wss://" +:+ GoLib.Replace rest "https://" "ws://" 1.
Proof.
  unfold GoLib.Replace. eval_append. cbn. eval_append.
  by rewrite replaceFrom_done.
Qed.

(** ** The endpoint *)

Lemma endpoint_start (dial : Dialer) (c : LiveConnection) :
  endpoint (started_conn (start dial c)) = endpoint c.
Proof. unfold start. by destruct (dial (endpoint c)). Qed.

Lemma Host_normalized (config : LiveConfiguration) (h : string) :
  Host (if (HandshakeTimeout config =? 0)%Z
        then set_HandshakeTimeout (45 * Second)%Z (set_Host h config)
        else set_Host h config) = h.
Proof. by destruct (HandshakeTimeout config =? 0)%Z. Qed.

Lemma append_Empty_r (s : string) : s +:+ "" = s.
Proof. induction s as [|a s IH]; [done|]. by rewrite append_String, IH. Qed.

(** C1, as stated, fails on the code: for the host [https://example.com],
    the SQL text [SELECT * FROM t], the token [abc] and live mode, the
    endpoint that [OpenLiveConnection] builds is not the one with [%20]
    for the spaces of the SQL text. *)
Lemma C1_endpoint_has_no_percent20 :
  builtEndpoint accepting sampleConfig <>
  Some "wss://example.com/api/ws/v1/sql/execute?sql=SELECT%20%2A%20FROM%20t&token=abc&live=true".
Proof. vm_compute. discriminate. Qed.

(** C1, amended: for that configuration and any server, the endpoint is
    [wss://example.com/api/ws/v1/sql/execute?sql=SELECT+%2A+FROM+t&token=abc&live=true]
    ([url.QueryEscape] writes a space as [+]); and for every host that
    begins with [https://], whatever follows it, that prefix is [wss://]
    in the endpoint, followed by the rest of the host, the fixed path, the
    escaped SQL text, the token and, in live mode, [&live=true]. *)
Theorem C1_endpoint :
  (forall dial : Dialer,
     builtEndpoint dial sampleConfig =
     Some "wss://example.com/api/ws/v1/sql/execute?sql=SELECT+%2A+FROM+t&token=abc&live=true")
  /\
  (forall (dial : Dialer) (config : LiveConfiguration) (rest : string),
     builtEndpoint dial (set_Host ("https://" +:+ rest) config) =
     Some ("wss://" +:+ GoLib.Replace rest "https://" "ws://" 1
           +:+ "/api/ws/v1/sql/execute?sql=" +:+ GoLib.QueryEscape (SQL config)
           +:+ "&token=" +:+ Token config
           +:+ (if Live config then "&live=true" else ""))).
Proof.
  split.
  - intros dial. unfold builtEndpoint, OpenLiveConnection.
    cbn [opened_conn fmap option_fmap option_map]. by rewrite endpoint_start.
  - intros dial config rest. unfold builtEndpoint, OpenLiveConnection.
    cbn [opened_conn fmap option_fmap option_map]. rewrite endpoint_start.
    cbn [endpoint]. f_equal.
    destruct (HandshakeTimeout (set_Host ("https://" +:+ rest) config) =? 0)%Z;
      cbn [set_Host set_HandshakeTimeout Host SQL Token Live];
      rewrite Replace_https; destruct (Live config);
      eval_append; by rewrite ?append_Empty_r.
Qed.

(** ** The listeners *)

Lemma listeners_appendListener (typ t : ResponseType) (cb : LiveListener)
    (c : LiveConnection) :
  listeners (appendListener typ cb c) !! t =
  if decide (typ = t) then Some (subscribers c typ ++ [cb]) else listeners c !! t.
Proof. unfold appendListener, subscribers. cbn [listeners set_listeners]. apply lookup_insert. Qed.

Lemma subscribers_appendListener (typ t : ResponseType) (cb : LiveListener)
    (c : LiveConnection) :
  subscribers (appendListener typ cb c) t =
  if decide (typ = t) then subscribers c typ ++ [cb] else subscribers c t.
Proof.
  unfold subscribers at 1. rewrite listeners_appendListener.
  by case_decide.
Qed.

(** The source's own words for the wildcard branch: the seven [On...]
    methods, called in the order of the source. *)
Lemma On_wildcard_calls (cb : LiveListener) (c : LiveConnection) :
  On WildcardResponse cb c =
  OnEnd cb (OnStats cb (OnSuccess cb (OnHeartbeat cb (OnRecordMessage cb
    (OnInvalidRequest cb (OnError cb c)))))).
Proof. reflexivity. Qed.

Lemma On_concrete (typ : ResponseType) (cb : LiveListener) (c : LiveConnection) :
  typ ≠ WildcardResponse -> On typ cb c = appendListener typ cb c.
Proof. intros Hne. unfold On. by rewrite decide_False. Qed.

(** Decides the equations between the names of response types. *)
Ltac decide_types :=
  repeat first [ rewrite decide_True by reflexivity
               | rewrite decide_False by discriminate ].

(** [On] never writes an entry under the wildcard. *)
Lemma On_keeps_wildcard (typ : ResponseType) (cb : LiveListener) (c : LiveConnection) :
  listeners (On typ cb c) !! WildcardResponse = listeners c !! WildcardResponse.
Proof.
  unfold On. destruct (decide (typ = WildcardResponse)) as [->|Hne].
  - rewrite !listeners_appendListener.
    unfold EndResponse, StatsResponse, SuccessResponse, HeartbeatResponse,
      RecordMessageResponse, InvalidRequestResponse, ErrorResponse, WildcardResponse.
    by decide_types.
  - rewrite listeners_appendListener. by rewrite decide_False.
Qed.

Lemma registerAll_cons (typ : ResponseType) (cb : LiveListener)
    (regs : list (ResponseType * LiveListener)) (c : LiveConnection) :
  registerAll ((typ, cb) :: regs) c = registerAll regs (On typ cb c).
Proof. reflexivity. Qed.

Lemma registerAll_keeps_wildcard (regs : list (ResponseType * LiveListener))
    (c : LiveConnection) :
  listeners (registerAll regs c) !! WildcardResponse = listeners c !! WildcardResponse.
Proof.
  revert c. induction regs as [|[typ cb] regs IH]; intros c; [done|].
  by rewrite registerAll_cons, IH, On_keeps_wildcard.
Qed.

(** A connection comes out of [OpenLiveConnection] with no listeners. *)
Lemma opened_listeners (dial : Dialer) (config : LiveConfiguration) (c : LiveConnection) :
  opened_conn (OpenLiveConnection dial config) = Some c -> listeners c = ∅.
Proof.
  unfold OpenLiveConnection, start. cbn [opened_conn started_conn].
  intros [= <-]. by destruct (dial _).
Qed.

(** C2: registering a callback under the wildcard appends it to the
    listeners of each of the seven concrete types, and the registry, which
    has no wildcard entry before, has none afterwards, nor after any
    further registrations. *)
Theorem C2_wildcard_registers_under_each_type (cb : LiveListener) (c : LiveConnection) :
  listeners c !! WildcardResponse = None ->
  Forall (fun typ => listeners (On WildcardResponse cb c) !! typ
                     = Some (subscribers c typ ++ [cb])) concreteTypes
  /\ listeners (On WildcardResponse cb c) !! WildcardResponse = None
  /\ (forall regs : list (ResponseType * LiveListener),
        listeners (registerAll regs (On WildcardResponse cb c)) !! WildcardResponse = None).
Proof.
  intros Hnone. split; [|split].
  - unfold concreteTypes, On. rewrite decide_True by done.
    repeat apply Forall_cons_2; [..|apply Forall_nil_2];
      rewrite !listeners_appendListener, ?subscribers_appendListener;
      unfold EndResponse, StatsResponse, SuccessResponse, HeartbeatResponse,
        RecordMessageResponse, InvalidRequestResponse, ErrorResponse;
      by decide_types.
  - by rewrite On_keeps_wildcard.
  - intros regs. by rewrite registerAll_keeps_wildcard, On_keeps_wildcard.
Qed.

Lemma C2_wildcard_witness :
  listeners sampleSession !! WildcardResponse = None
  /\ Forall (fun typ => listeners (On WildcardResponse quiet sampleSession) !! typ
                        = Some (subscribers sampleSession typ ++ [quiet])) concreteTypes.
Proof.
  split; [reflexivity|].
  apply (C2_wildcard_registers_under_each_type quiet sampleSession). reflexivity.
Defined.

(** ** Close *)

Lemma Close_closed (c : LiveConnection) :
  (0 < closed c)%N -> Close c = (c, Returned None).
Proof. intros H. unfold Close. by apply N.ltb_lt in H as ->. Qed.

Lemma Close_open (c : LiveConnection) (k : Conn) :
  closed c = 0%N -> receiveStop c = false -> conn c = Some k ->
  Close c =
  (set_conn (Some {| closeCalls := S (closeCalls k); closeErr := closeErr k |})
     (set_receiveStop true (set_closed 1%N c)),
   Returned (closeErr k)).
Proof.
  intros Hclosed Hstop Hconn. unfold Close. rewrite Hclosed.
  cbn [N.ltb N.compare receiveStop set_closed set_receiveStop conn]. by rewrite Hstop, Hconn.
Qed.

Lemma CloseTimes_closed (n : nat) (c : LiveConnection) :
  (0 < closed c)%N -> CloseTimes n c = (c, replicate n (Returned None)).
Proof.
  intros H. induction n as [|n IH]; [done|].
  cbn [CloseTimes]. by rewrite (Close_closed c H), IH.
Qed.

(** C3: on a session that is open, with its transport, [N > 1] calls of
    [Close] in sequence give: the transport's own answer on the first
    call, nil on each of the calls 2 to [N], and one release of the
    transport in all, made by the first call. *)
Theorem C3_Close_idempotent (c : LiveConnection) (k : Conn) (n : nat) :
  closed c = 0%N -> receiveStop c = false -> conn c = Some k ->
  (CloseTimes (S (S n)) c).2 = Returned (closeErr k) :: replicate (S n) (Returned None)
  /\ releases (Close c).1 = S (releases c)
  /\ releases (CloseTimes (S (S n)) c).1 = S (releases c).
Proof.
  intros Hclosed Hstop Hconn.
  change (CloseTimes (S (S n)) c)
    with (let (c1, r) := Close c in let (c2, rs) := CloseTimes (S n) c1 in (c2, r :: rs)).
  rewrite (Close_open c k Hclosed Hstop Hconn).
  rewrite CloseTimes_closed by (cbn; lia).
  unfold releases. cbn. by rewrite Hconn.
Qed.

Lemma C3_Close_idempotent_witness :
  (CloseTimes 3 sampleSession).2 = [Returned None; Returned None; Returned None]
  /\ releases (Close sampleSession).1 = 1
  /\ releases (CloseTimes 3 sampleSession).1 = 1.
Proof.
  apply (C3_Close_idempotent sampleSession {| closeCalls := 0; closeErr := None |} 1);
    reflexivity.
Defined.

(** ** A failed handshake *)

Lemma handshake_dial (dial : Dialer) (config : LiveConfiguration) (r : Conn + error) :
  handshake dial config = Some r ->
  exists c0 : LiveConnection,
    conn c0 = None /\ closed c0 = 0%N /\ receiveStop c0 = false
    /\ dial (endpoint c0) = r
    /\ OpenLiveConnection dial config =
       {| opened_conn := Some (started_conn (start dial c0));
          opened_err := started_err (start dial c0);
          opened_goroutines := started_goroutines (start dial c0) |}.
Proof.
  unfold handshake, builtEndpoint, OpenLiveConnection.
  cbn [opened_conn fmap option_fmap option_map]. rewrite endpoint_start.
  intros [= Hdial]. eexists. repeat split; [..|exact Hdial]; reflexivity.
Qed.

(** C10: when the handshake fails, [OpenLiveConnection] returns a
    connection that is not nil together with an error that is not nil;
    that connection has a nil transport, and [Close] on it panics on the
    nil pointer. *)
Theorem C10_failed_dial_returns_unusable_connection
    (dial : Dialer) (config : LiveConfiguration) (e : error) :
  handshake dial config = Some (inr e) ->
  exists (c : LiveConnection) (err : error),
    opened_conn (OpenLiveConnection dial config) = Some c
    /\ opened_err (OpenLiveConnection dial config) = Some err
    /\ conn c = None
    /\ (Close c).2 = Panicked "invalid memory address or nil pointer dereference".
Proof.
  intros H. apply handshake_dial in H as (c0 & Hconn & Hclosed & Hstop & Hdial & ->).
  unfold start. rewrite Hdial. cbn [opened_conn opened_err started_conn started_err].
  eexists c0, _. repeat split; [done|].
  unfold Close. rewrite Hclosed.
  cbn [N.ltb N.compare receiveStop set_closed set_receiveStop conn snd].
  by rewrite Hstop, Hconn.
Qed.

Lemma C10_failed_dial_witness :
  exists (c : LiveConnection) (err : error),
    opened_conn (OpenLiveConnection refusing sampleConfig) = Some c
    /\ opened_err (OpenLiveConnection refusing sampleConfig) = Some err
    /\ conn c = None
    /\ (Close c).2 = Panicked "invalid memory address or nil pointer dereference".
Proof.
  apply (C10_failed_dial_returns_unusable_connection refusing sampleConfig
           (OtherError "bad handshake")).
  reflexivity.
Defined.

Lemma HasPrefix_app (s t : string) : GoLib.HasPrefix (s +:+ t) s = true.
Proof.
  induction s as [|a s IH]; [done|].
  rewrite append_String. cbn [GoLib.HasPrefix]. by rewrite Ascii.eqb_refl.
Qed.

Lemma Contains_here (s t : string) : GoLib.Contains (s +:+ t) s = true.
Proof.
  destruct (s +:+ t) eqn:E; cbn [GoLib.Contains];
    by rewrite <- E, HasPrefix_app.
Qed.

Lemma Contains_later (pre s x : string) :
  GoLib.Contains s x = true -> GoLib.Contains (pre +:+ s) x = true.
Proof.
  intros H. induction pre as [|a pre IH]; [done|].
  rewrite append_String. cbn [GoLib.Contains]. rewrite IH. apply orb_true_r.
Qed.



(** ** The read loop *)

Lemma readLoop_Read (c : LiveConnection) (r : ReadResult) (sched : list Step) :
  receiveStop c = false ->
  readLoop (Read r :: sched) c = before (iteration c r) (readLoop sched c).
Proof. intros H. cbn [readLoop]. by rewrite H. Qed.

Lemma iteration_ReadOk (c : LiveConnection) (resp : LiveResponse) :
  iteration c (ReadOk resp) = fire (subscribers c (Type_ resp)) resp.
Proof.
  unfold iteration, subscribers. by destruct (listeners c !! Type_ resp).
Qed.


Lemma calls_app (evs1 evs2 : list Event) : calls (evs1 ++ evs2) = calls evs1 ++ calls evs2.
Proof.
  induction evs1 as [|[err|cb resp] evs1 IH]; cbn [app calls]; [done|done|].
  by rewrite IH.
Qed.

(** Every listener of the list is called, once, in the order of the list,
    whatever the listeners return. *)
Lemma calls_fire (callbacks : list LiveListener) (resp : LiveResponse) :
  calls (fire callbacks resp) = map (fun cb => (cb, resp)) callbacks.
Proof.
  induction callbacks as [|cb callbacks IH]; [done|].
  cbn [fire calls map]. destruct (cb resp); cbn [calls]; by rewrite IH.
Qed.

(** The errors sent are the ones the listeners returned, in order. *)
Lemma sent_fire (callbacks : list LiveListener) (resp : LiveResponse) :
  sent (fire callbacks resp) = omap (fun cb => cb resp) callbacks.
Proof.
  induction callbacks as [|cb callbacks IH]; [done|].
  cbn [fire sent omap list_omap]. destruct (cb resp); cbn [sent]; by rewrite IH.
Qed.





(** ** The order of delivery *)

Lemma receiveStop_appendListener (typ : ResponseType) (cb : LiveListener)
    (c : LiveConnection) :
  receiveStop (appendListener typ cb c) = receiveStop c.
Proof. reflexivity. Qed.

Lemma receiveStop_On (typ : ResponseType) (cb : LiveListener) (c : LiveConnection) :
  receiveStop (On typ cb c) = receiveStop c.
Proof. unfold On. by case_decide. Qed.

Lemma receiveStop_registerAll (regs : list (ResponseType * LiveListener))
    (c : LiveConnection) :
  receiveStop (registerAll regs c) = receiveStop c.
Proof.
  revert c. induction regs as [|[typ cb] regs IH]; intros c; [done|].
  by rewrite registerAll_cons, IH, receiveStop_On.
Qed.

(** [On] appends the callback to the listeners of the types it registers
    for, and leaves the listeners of the other types as they are. *)
Lemma subscribers_On (typ t : ResponseType) (cb : LiveListener) (c : LiveConnection) :
  subscribers (On typ cb c) t
  = subscribers c t ++ (if registersFor t (typ, cb) then [cb] else []).
Proof.
  unfold On, registersFor. cbn [fst].
  destruct (decide (typ = WildcardResponse)) as [->|Hne].
  - rewrite !subscribers_appendListener.
    destruct (bool_decide (t ∈ concreteTypes)) eqn:Hin.
    + apply bool_decide_eq_true in Hin. unfold concreteTypes in Hin.
      repeat (apply elem_of_cons in Hin as [->|Hin]); [..|by apply elem_of_nil in Hin];
        unfold EndResponse, StatsResponse, SuccessResponse, HeartbeatResponse,
          RecordMessageResponse, InvalidRequestResponse, ErrorResponse;
        by decide_types.
    + apply bool_decide_eq_false in Hin.
      rewrite !decide_False, app_nil_r; [done|..];
        intros <-; apply Hin; unfold concreteTypes; set_solver.
  - rewrite subscribers_appendListener.
    destruct (decide (typ = t)) as [->|Hnt].
    + by rewrite bool_decide_eq_true_2.
    + by rewrite bool_decide_eq_false_2, app_nil_r.
Qed.

(** The listeners of a type after a sequence of registrations: the ones
    that were there, then the registered ones in the order of their
    registration. *)
Lemma subscribers_registerAll (regs : list (ResponseType * LiveListener))
    (t : ResponseType) (c : LiveConnection) :
  subscribers (registerAll regs c) t = subscribers c t ++ registeredFor t regs.
Proof.
  revert c. induction regs as [|[typ cb] regs IH]; intros c.
  - unfold registeredFor. cbn. by rewrite app_nil_r.
  - rewrite registerAll_cons, IH, subscribers_On, <- app_assoc. f_equal.
    unfold registeredFor. rewrite filter_cons.
    destruct (registersFor t (typ, cb)) eqn:E.
    + by rewrite decide_True.
    + by rewrite decide_False.
Qed.

Lemma readLoop_arrivals (frames : list LiveResponse) (c : LiveConnection) :
  receiveStop c = false ->
  readLoop (arrivals frames) c
  = {| run_conn := c;
       run_trace := flat_map (fun resp => fire (subscribers c (Type_ resp)) resp) frames;
       run_exit := None |}.
Proof.
  intros Hstop. induction frames as [|resp frames IH]; [done|].
  cbn [arrivals map]. fold (arrivals frames).
  rewrite readLoop_Read by done. by rewrite IH, iteration_ReadOk.
Qed.

(** C8: the frames of a sequence are dispatched in the order of their
    arrival, one at a time: the trace of the loop is, frame after frame,
    the whole dispatch of that frame to the listeners of its type; the
    calls made are, frame after frame, one call of each listener of the
    frame's type, in the order of the list; and that order is the order
    of registration. *)
Theorem C8_dispatch_in_arrival_order
    (c : LiveConnection) (frames : list LiveResponse) :
  receiveStop c = false ->
  run_trace (readLoop (arrivals frames) c)
  = flat_map (fun resp => fire (subscribers c (Type_ resp)) resp) frames
  /\ calls (run_trace (readLoop (arrivals frames) c))
     = flat_map (fun resp => map (fun cb => (cb, resp)) (subscribers c (Type_ resp))) frames
  /\ (forall (regs : list (ResponseType * LiveListener)) (t : ResponseType),
        subscribers (registerAll regs c) t = subscribers c t ++ registeredFor t regs).
Proof.
  intros Hstop. rewrite readLoop_arrivals by done. cbn [run_trace].
  split; [done|]. split; [|intros regs t; apply subscribers_registerAll].
  induction frames as [|resp frames IH]; [done|].
  cbn [flat_map]. by rewrite calls_app, calls_fire, IH.
Qed.

Lemma C8_dispatch_witness :
  let c := registerAll [(HeartbeatResponse, faulty); (WildcardResponse, quiet)] sampleSession in
  let frames := [sampleResponse HeartbeatResponse; sampleResponse RecordMessageResponse;
                 sampleResponse ErrorResponse] in
  calls (run_trace (readLoop (arrivals frames) c))
  = flat_map (fun resp => map (fun cb => (cb, resp)) (subscribers c (Type_ resp))) frames
  /\ subscribers c HeartbeatResponse = [faulty; quiet].
Proof.
  split; [|reflexivity].
  apply (C8_dispatch_in_arrival_order
           (registerAll [(HeartbeatResponse, faulty); (WildcardResponse, quiet)] sampleSession)
           [sampleResponse HeartbeatResponse; sampleResponse RecordMessageResponse;
            sampleResponse ErrorResponse]).
  reflexivity.
Defined.

(** ** The closed flag *)

Lemma closed_On (typ : ResponseType) (cb : LiveListener) (c : LiveConnection) :
  closed (On typ cb c) = closed c.
Proof. unfold On. by case_decide. Qed.

Lemma stays_closed_On (typ : ResponseType) (cb : LiveListener) (c : LiveConnection) :
  isClosed c = true -> isClosed (On typ cb c) = true.
Proof. unfold isClosed. by rewrite closed_On. Qed.

Lemma stays_closed_Close (c : LiveConnection) :
  isClosed c = true -> isClosed (Close c).1 = true.
Proof. unfold isClosed, Close. intros H. by rewrite H. Qed.

Lemma stays_closed_closeStep (p : ClosePoint) (c : LiveConnection) :
  isClosed c = true -> isClosed (closeStep p c).2 = true.
Proof.
  unfold isClosed. intros H. destruct p; cbn [closeStep]; try done.
  - by rewrite H.
  - by destruct (receiveStop c).
  - by destruct (conn c).
Qed.

Lemma stays_closed_readLoop (sched : list Step) (c : LiveConnection) :
  isClosed c = true -> isClosed (run_conn (readLoop sched c)) = true.
Proof.
  revert c. induction sched as [|[r|typ cb|] sched IH]; intros c H; cbn [readLoop].
  - done.
  - destruct (receiveStop c).
    + pose proof (stays_closed_Close c H) as H'. by destruct (Close c).
    + by apply IH.
  - by apply IH, stays_closed_On.
  - by apply IH, stays_closed_Close.
Qed.

Lemma stays_closed_race_from (sched : list Who) (st : Racing) :
  isClosed (shared st) = true -> isClosed (shared (foldl raceStep st sched)) = true.
Proof.
  revert st. induction sched as [|w sched IH]; intros st H; [done|].
  cbn [foldl]. apply IH. destruct w; unfold raceStep.
  - pose proof (stays_closed_closeStep (first st) (shared st) H) as H'.
    by destruct (closeStep (first st) (shared st)).
  - pose proof (stays_closed_closeStep (second st) (shared st) H) as H'.
    by destruct (closeStep (second st) (shared st)).
Qed.

(** The flag starts open. *)
Lemma opened_not_closed (dial : Dialer) (cfg : LiveConfiguration) (c : LiveConnection) :
  opened_conn (OpenLiveConnection dial cfg) = Some c -> isClosed c = false.
Proof.
  unfold OpenLiveConnection, start. cbn [opened_conn started_conn].
  intros [= <-]. by destruct (dial _).
Qed.

(** [Close], run alone, is its four steps one after the other. *)
Lemma Close_by_steps (c : LiveConnection) :
  Nat.iter 4 (fun pc => closeStep pc.1 pc.2) (AtLoad, c)
  = (Finished (Close c).2, (Close c).1).
Proof.
  destruct c as [k cfg stop flag tok ep ls]. unfold Close. cbn.
  destruct (0 <? flag)%N; [done|]. cbn.
  destruct stop; [done|]. cbn. by destruct k.
Qed.

(** C4, the part that holds: no operation on a connection, no step of
    [Close] and no run of the read loop takes the flag from closed back to
    open. *)
Lemma closed_flag_monotone (c : LiveConnection) :
  isClosed c = true ->
  (forall typ cb, isClosed (On typ cb c) = true)
  /\ isClosed (Close c).1 = true
  /\ (forall p, isClosed (closeStep p c).2 = true)
  /\ (forall sched, isClosed (run_conn (readLoop sched c)) = true).
Proof.
  intros H. repeat split; intros;
    auto using stays_closed_On, stays_closed_Close, stays_closed_closeStep,
      stays_closed_readLoop.
Qed.

(** C4, the part that fails on the code: the check of the flag and the
    store are two accesses, so two goroutines that call [Close] on the
    open [sampleSession] can both pass the check before either stores;
    both are then in the release sequence at once, and the one that comes
    second to the channel panics on closing it again. *)
Theorem C4_concurrent_Close_races :
  (let st := race [G1; G2] sampleSession in
   releasing (first st) = true /\ releasing (second st) = true)
  /\ (let st := race [G1; G2; G1; G1; G1; G2; G2] sampleSession in
      first st = Finished (Returned None)
      /\ second st = Finished (Panicked "close of closed channel")).
Proof. by vm_compute. Qed.

(** ** The quota [delete] commands *)

Section QuotaDelete.

Import QuotaCommand.

Context {QuotaConfig : Type}.
Variable notFound : string.
Variable client : ClientCall -> option error.
Hypothesis client_ok : forall call, client call = None.

Lemma actionMsgOf_nil : actionMsgOf [] = "delete".
Proof. reflexivity. Qed.

Lemma actionMsgOf_cons (a : string) (args : list string) : actionMsgOf (a :: args) = "update".
Proof. unfold actionMsgOf. rewrite decide_True; [done|]. cbn. lia. Qed.

(** The four targets whose report follows the arguments: the default user
    quota, a specific user, a specific client and the default client
    quota are reported with [actionMsg] and a [d]. *)
Lemma users_delete_default_report (quota : createQuotaPayload QuotaConfig)
    (args : list string) :
  User quota = "" ->
  shown (usersDelete notFound client quota args)
  = ["Default user quota " +:+ actionMsgOf args +:+ "d"].
Proof.
  intros Hu. unfold usersDelete. rewrite Hu. cbn [String.eqb negb].
  by rewrite client_ok.
Qed.

Lemma users_delete_user_report (quota : createQuotaPayload QuotaConfig)
    (args : list string) :
  User quota <> "" -> ClientID quota = "" ->
  shown (usersDelete notFound client quota args)
  = ["Quota for user " +:+ User quota +:+ " " +:+ actionMsgOf args +:+ "d"].
Proof.
  intros Hu Hc. unfold usersDelete. rewrite Hc.
  apply String.eqb_neq in Hu as ->. cbn [String.eqb negb].
  by rewrite client_ok.
Qed.

Lemma clients_delete_default_report (quota : createQuotaPayload QuotaConfig)
    (args : list string) :
  ClientID quota = "" \/ ClientID quota = "all" \/ ClientID quota = "*" ->
  shown (clientsDelete notFound client quota args)
  = ["Default client quota " +:+ actionMsgOf args +:+ "d"].
Proof.
  intros Hc. unfold clientsDelete.
  destruct Hc as [-> | [-> | ->]]; cbn [String.eqb Ascii.eqb Bool.eqb negb andb];
    by rewrite client_ok.
Qed.

Lemma clients_delete_client_report (quota : createQuotaPayload QuotaConfig)
    (args : list string) :
  ClientID quota <> "" -> ClientID quota <> "all" -> ClientID quota <> "*" ->
  shown (clientsDelete notFound client quota args)
  = ["Quota for client " +:+ ClientID quota +:+ " " +:+ actionMsgOf args +:+ "d"].
Proof.
  intros H1 H2 H3. unfold clientsDelete.
  apply String.eqb_neq in H1 as ->. apply String.eqb_neq in H2 as ->.
  apply String.eqb_neq in H3 as ->. cbn [negb andb].
  by rewrite client_ok.
Qed.

(** The two targets whose report does not follow the arguments: for a user
    with a client, and for a user with all clients, the text says
    [deleted] whatever the arguments are. *)
Lemma users_delete_user_client_report (quota : createQuotaPayload QuotaConfig)
    (args : list string) :
  User quota <> "" -> ClientID quota <> "" ->
  shown (usersDelete notFound client quota args)
  = [if String.eqb (ClientID quota) "all" || String.eqb (ClientID quota) "*"
     then "Quota for user " +:+ User quota +:+ " deleted for all clients"
     else "Quota for user " +:+ User quota +:+ " deleted for client " +:+ ClientID quota].
Proof.
  intros Hu Hc. unfold usersDelete.
  apply String.eqb_neq in Hu as ->. apply String.eqb_neq in Hc as ->. cbn [negb].
  destruct (String.eqb (ClientID quota) "all" || String.eqb (ClientID quota) "*");
    by rewrite client_ok.
Qed.

End QuotaDelete.

(** C9, on the code: for a user with a client, a delete with one
    positional argument, which removes that one key of the quota, is
    reported as [deleted], not as [updated]; and so it is for a user with
    all clients. *)
Theorem C9_user_client_delete_with_arguments_says_deleted :
  let run clientID :=
    QuotaCommand.usersDelete (QuotaConfig := unit) "not found" (fun _ => None)
      {| QuotaCommand.Config := tt; QuotaCommand.User := "alice";
         QuotaCommand.ClientID := clientID |}
      ["producer_byte_rate"] in
  QuotaCommand.targetOf (QuotaCommand.ran_call (run "c1")) = QuotaCommand.UserAndClient
  /\ QuotaCommand.shown (run "c1") = ["Quota for user alice deleted for client c1"]
  /\ QuotaCommand.targetOf (QuotaCommand.ran_call (run "*")) = QuotaCommand.UserAndAllClients
  /\ QuotaCommand.shown (run "*") = ["Quota for user alice deleted for all clients"]
  /\ QuotaCommand.actionMsgOf ["producer_byte_rate"] = "update".
Proof. by vm_compute. Qed.

(** * Further properties of the code *)

(** ** Opening the connection *)

(** [OpenLiveConnection] is [start] on a connection that is new: without
    transport, open, without listeners. *)
Lemma OpenLiveConnection_start (dial : Dialer) (cfg : LiveConfiguration) :
  exists c0 : LiveConnection,
    conn c0 = None /\ closed c0 = 0%N /\ receiveStop c0 = false /\ listeners c0 = ∅
    /\ HandshakeTimeout (config c0)
       = (if (HandshakeTimeout cfg =? 0)%Z then 45 * Second else HandshakeTimeout cfg)%Z
    /\ handshake dial cfg = Some (dial (endpoint c0))
    /\ OpenLiveConnection dial cfg =
       {| opened_conn := Some (started_conn (start dial c0));
          opened_err := started_err (start dial c0);
          opened_goroutines := started_goroutines (start dial c0) |}.
Proof.
  unfold handshake, builtEndpoint, OpenLiveConnection.
  cbn [opened_conn fmap option_fmap option_map]. rewrite endpoint_start.
  match goal with |- context [start dial ?c] => exists c end.
  repeat split. cbn [config set_Host HandshakeTimeout].
  by destruct (HandshakeTimeout cfg =? 0)%Z.
Qed.

(** When the handshake succeeds, [OpenLiveConnection] returns the
    connection with no error; the connection holds the transport that the
    dialer gave, it is open, it has no listeners, its handshake timeout is
    the given one, or 45 seconds if none was given, and one goroutine, the
    read loop, has been started. *)
Theorem open_success (dial : Dialer) (cfg : LiveConfiguration) (k : Conn) :
  handshake dial cfg = Some (inl k) ->
  exists c : LiveConnection,
    opened_conn (OpenLiveConnection dial cfg) = Some c
    /\ opened_err (OpenLiveConnection dial cfg) = None
    /\ opened_goroutines (OpenLiveConnection dial cfg) = [GoReadLoop]
    /\ conn c = Some k
    /\ isClosed c = false /\ receiveStop c = false /\ listeners c = ∅
    /\ HandshakeTimeout (config c)
       = (if (HandshakeTimeout cfg =? 0)%Z then 45 * Second else HandshakeTimeout cfg)%Z.
Proof.
  destruct (OpenLiveConnection_start dial cfg)
    as (c0 & Hconn & Hclosed & Hstop & Hls & Htime & -> & ->).
  intros [= Hdial]. unfold start. rewrite Hdial.
  cbn [opened_conn opened_err opened_goroutines started_conn started_err started_goroutines].
  exists (set_conn (Some k) c0). unfold isClosed.
  cbn [set_conn conn closed receiveStop listeners config].
  by rewrite Hclosed.
Qed.

Lemma open_success_witness :
  exists c : LiveConnection,
    opened_conn (OpenLiveConnection accepting sampleConfig) = Some c
    /\ opened_err (OpenLiveConnection accepting sampleConfig) = None
    /\ opened_goroutines (OpenLiveConnection accepting sampleConfig) = [GoReadLoop]
    /\ conn c = Some {| closeCalls := 0; closeErr := None |}
    /\ isClosed c = false /\ receiveStop c = false /\ listeners c = ∅
    /\ HandshakeTimeout (config c) = 45000000000%Z.
Proof.
  apply (open_success accepting sampleConfig {| closeCalls := 0; closeErr := None |}).
  reflexivity.
Defined.

Lemma replaceFrom_absent (n : nat) (old new s : string) :
  GoLib.Contains s old = false -> GoLib.replaceFrom 0 n old new s = s.
Proof.
  induction s as [|a s IH]; [done|].
  cbn [GoLib.Contains]. intros [Hhere Hlater]%orb_false_iff.
  cbn [GoLib.replaceFrom]. destruct n as [|n]; [done|].
  by rewrite Hhere, IH.
Qed.

(** A host in which [https://] does not occur is used as it is: the
    endpoint is the host, the fixed path, the escaped SQL text, the token
    and, in live mode, [&live=true]. In particular a host that begins with
    [http://] keeps that scheme. *)
Theorem endpoint_of_host_without_https (dial : Dialer) (cfg : LiveConfiguration) :
  GoLib.Contains (Host cfg) "https://" = false ->
  builtEndpoint dial cfg
  = Some (Host cfg +:+ "/api/ws/v1/sql/execute?sql=" +:+ GoLib.QueryEscape (SQL cfg)
          +:+ "&token=" +:+ Token cfg +:+ (if Live cfg then "&live=true" else "")).
Proof.
  intros Habsent. unfold builtEndpoint, OpenLiveConnection.
  cbn [opened_conn fmap option_fmap option_map]. rewrite endpoint_start.
  cbn [endpoint]. f_equal.
  destruct (HandshakeTimeout cfg =? 0)%Z;
    cbn [set_Host set_HandshakeTimeout Host SQL Token Live];
    unfold GoLib.Replace;
    rewrite (replaceFrom_absent 1 "https://" "wss://" (Host cfg)) by done;
    rewrite (replaceFrom_absent 1 "https://" "ws://" (Host cfg)) by done;
    destruct (Live cfg); by rewrite ?append_Empty_r.
Qed.

Lemma endpoint_of_host_without_https_witness :
  builtEndpoint accepting plainConfig
  = Some "http://localhost:24015/api/ws/v1/sql/execute?sql=SELECT+%2A+FROM+t&token=abc".
Proof.
  apply (endpoint_of_host_without_https accepting plainConfig). reflexivity.
Defined.

(** Every byte of an escaped text is a letter, a digit or one of
    [- _ . ~ + %]. *)
Lemma querySafe_kept (a : ascii) : GoLib.shouldEscape a = false -> querySafe a = true.
Proof. destruct a as [[] [] [] [] [] [] [] []]; vm_compute; congruence. Qed.

Lemma querySafe_hex_high (a : ascii) :
  querySafe (GoLib.hexDigit (nat_of_ascii a / 16)) = true.
Proof. by destruct a as [[] [] [] [] [] [] [] []]; vm_compute. Qed.

Lemma querySafe_hex_low (a : ascii) :
  querySafe (GoLib.hexDigit (nat_of_ascii a mod 16)) = true.
Proof. by destruct a as [[] [] [] [] [] [] [] []]; vm_compute. Qed.

Lemma QueryEscape_bytes (s : string) :
  forallb querySafe (list_ascii_of_string (GoLib.QueryEscape s)) = true.
Proof.
  induction s as [|a s IH]; [done|].
  cbn [GoLib.QueryEscape]. destruct (GoLib.shouldEscape a) eqn:Hesc.
  - destruct (Ascii.eqb a " "); cbn [list_ascii_of_string forallb]; rewrite IH.
    + reflexivity.
    + by rewrite querySafe_hex_high, querySafe_hex_low.
  - cbn [list_ascii_of_string forallb]. by rewrite IH, querySafe_kept.
Qed.

Lemma Contains_byte (s : string) (a : ascii) (safe : ascii -> bool) :
  forallb safe (list_ascii_of_string s) = true -> safe a = false ->
  GoLib.Contains s (String a "") = false.
Proof.
  intros Hall Ha. induction s as [|b s IH]; [done|].
  cbn [list_ascii_of_string forallb] in Hall. apply andb_true_iff in Hall as [Hb Hall].
  cbn [GoLib.Contains GoLib.HasPrefix]. rewrite (IH Hall).
  destruct (Ascii.eqb_spec a b) as [->|_]; [congruence|done].
Qed.

(** The escaped SQL text that [OpenLiveConnection] puts in the endpoint
    consists of letters, digits and [- _ . ~ + %] only: whatever the SQL
    text is, it brings no [&], [=], [#] or space into the query string. *)
Theorem escaped_sql_is_one_parameter (sql : string) :
  forallb querySafe (list_ascii_of_string (GoLib.QueryEscape sql)) = true
  /\ GoLib.Contains (GoLib.QueryEscape sql) "&" = false
  /\ GoLib.Contains (GoLib.QueryEscape sql) "=" = false
  /\ GoLib.Contains (GoLib.QueryEscape sql) "#" = false
  /\ GoLib.Contains (GoLib.QueryEscape sql) " " = false.
Proof.
  pose proof (QueryEscape_bytes sql) as H.
  repeat split; [done|..]; by apply (Contains_byte _ _ querySafe).
Qed.

(** ** Registration *)

(** A listener registered under the wildcard is called once for a frame of
    each of the seven types, after the listeners that were there, and is
    not called for a frame of any other type. *)
Theorem wildcard_listener_coverage
    (cb : LiveListener) (c : LiveConnection) (resp : LiveResponse) :
  calls (iteration (On WildcardResponse cb c) (ReadOk resp))
  = calls (iteration c (ReadOk resp))
    ++ (if bool_decide (Type_ resp ∈ concreteTypes) then [(cb, resp)] else []).
Proof.
  rewrite !iteration_ReadOk, !calls_fire, subscribers_On, map_app.
  unfold registersFor. cbn [fst]. rewrite decide_True by reflexivity.
  by destruct (bool_decide (Type_ resp ∈ concreteTypes)).
Qed.

(** Registrations under two different types, neither the wildcard, can be
    made in either order: the connection is the same. *)
Theorem On_commute (t1 t2 : ResponseType) (cb1 cb2 : LiveListener) (c : LiveConnection) :
  t1 <> WildcardResponse -> t2 <> WildcardResponse -> t1 <> t2 ->
  On t1 cb1 (On t2 cb2 c) = On t2 cb2 (On t1 cb1 c).
Proof.
  intros H1 H2 Hne. rewrite !On_concrete by done.
  unfold appendListener, set_listeners. cbn [listeners conn config receiveStop closed
    authToken endpoint]. f_equal.
  rewrite !lookup_insert_ne by done. by apply insert_insert_ne.
Qed.

Lemma On_commute_witness :
  On HeartbeatResponse quiet (On RecordMessageResponse faulty sampleSession)
  = On RecordMessageResponse faulty (On HeartbeatResponse quiet sampleSession).
Proof. by apply (On_commute HeartbeatResponse RecordMessageResponse quiet faulty sampleSession). Defined.

(** ** Runs of the read loop *)

Lemma before_nil (r : Run) : before [] r = r.
Proof. by destruct r. Qed.

Lemma before_before (evs1 evs2 : list Event) (r : Run) :
  before evs1 (before evs2 r) = before (evs1 ++ evs2) r.
Proof. unfold before. cbn. by rewrite app_assoc. Qed.

Lemma sent_app (evs1 evs2 : list Event) : sent (evs1 ++ evs2) = sent evs1 ++ sent evs2.
Proof.
  induction evs1 as [|[err|cb resp] evs1 IH]; cbn [app sent]; [done| |done].
  by rewrite IH.
Qed.


(** Runs compose: the run of a schedule followed by another is the run of
    the first if the loop has returned in it, and otherwise the events of
    the first followed by the run of the second from where the first left
    the connection. *)
Theorem readLoop_app (sched1 sched2 : list Step) (c : LiveConnection) :
  readLoop (sched1 ++ sched2) c
  = match run_exit (readLoop sched1 c) with
    | Some _ => readLoop sched1 c
    | None => before (run_trace (readLoop sched1 c))
                     (readLoop sched2 (run_conn (readLoop sched1 c)))
    end.
Proof.
  revert c. induction sched1 as [|[r|typ cb|] sched1 IH]; intros c; cbn [app readLoop].
  - cbn. by rewrite before_nil.
  - destruct (receiveStop c).
    + by destruct (Close c).
    + rewrite IH. cbn [before run_exit run_trace run_conn].
      destruct (run_exit (readLoop sched1 c)); [done|].
      by rewrite before_before.
  - apply IH.
  - apply IH.
Qed.



Lemma sent_iteration (c : LiveConnection) (r : ReadResult) :
  sent (iteration c r) = errorsOf c r.
Proof.
  destruct r as [resp|err].
  - by rewrite iteration_ReadOk, sent_fire.
  - unfold iteration, errorsOf. by destruct (isNetOpError err).
Qed.

(** What arrives on the error channel during a sequence of reads: for each
    read in turn, the read's error if it failed, and otherwise the errors
    that the listeners of the frame returned, in their order; nothing
    else, and nothing is left out. *)
Theorem errors_sent_by_reads (rs : list ReadResult) (c : LiveConnection) :
  receiveStop c = false ->
  sent (run_trace (readLoop (reads rs) c)) = flat_map (errorsOf c) rs.
Proof.
  intros Hstop. induction rs as [|r rs IH]; [done|].
  cbn [reads map flat_map]. fold (reads rs).
  rewrite readLoop_Read by done. cbn [before run_trace].
  by rewrite sent_app, sent_iteration, IH.
Qed.

Lemma errors_sent_by_reads_witness :
  let c := On HeartbeatResponse quiet (On HeartbeatResponse faulty sampleSession) in
  sent (run_trace (readLoop (reads [ReadErr (NetOpError "connection reset");
                                    ReadOk (sampleResponse HeartbeatResponse);
                                    ReadOk (sampleResponse RecordMessageResponse)]) c))
  = [NetOpError "connection reset"; OtherError "listener failed"].
Proof.
  apply (errors_sent_by_reads
           [ReadErr (NetOpError "connection reset");
            ReadOk (sampleResponse HeartbeatResponse);
            ReadOk (sampleResponse RecordMessageResponse)]
           (On HeartbeatResponse quiet (On HeartbeatResponse faulty sampleSession))).
  reflexivity.
Defined.

(** ** The session between calls *)










(** ** Two calls of Close at once *)

Lemma releaseBudget_closeStep (r0 : nat) (p q : ClosePoint) (c : LiveConnection) :
  (if receiveStop c
   then atConnClose p + atConnClose q + releases c <= S r0 /\ r0 <= releases c
   else atConnClose p + atConnClose q = 0 /\ releases c = r0) ->
  let c' := (closeStep p c).2 in
  if receiveStop c'
  then atConnClose (closeStep p c).1 + atConnClose q + releases c' <= S r0
       /\ r0 <= releases c'
  else atConnClose (closeStep p c).1 + atConnClose q = 0 /\ releases c' = r0.
Proof.
  destruct c as [k cfg stop flag tok ep ls]. unfold releases.
  destruct p; cbn [closeStep atConnClose conn receiveStop closed set_closed
                   set_receiveStop set_conn fst snd].
  - destruct (0 <? flag)%N; by cbn.
  - by cbn.
  - destruct stop; cbn; [done|]. intros [H1 H2]. lia.
  - destruct stop; cbn; [|intros [H _]; lia].
    destruct k as [k|]; cbn; lia.
  - by cbn.
Qed.

Lemma releaseBudget_raceStep (r0 : nat) (st : Racing) (w : Who) :
  releaseBudget r0 st -> releaseBudget r0 (raceStep st w).
Proof.
  unfold releaseBudget. destruct st as [p q c]. cbn [first second shared].
  intros H. destruct w; unfold raceStep; cbn [first second shared].
  - pose proof (releaseBudget_closeStep r0 p q c H) as H'.
    by destruct (closeStep p c).
  - assert (Hq : if receiveStop c
                 then atConnClose q + atConnClose p + releases c <= S r0 /\ r0 <= releases c
                 else atConnClose q + atConnClose p = 0 /\ releases c = r0).
    { destruct (receiveStop c); lia. }
    pose proof (releaseBudget_closeStep r0 q p c Hq) as H'.
    destruct (closeStep q c) as [q' c']. cbn [fst snd first second shared] in *.
    destruct (receiveStop c'); lia.
Qed.

(** However two calls of [Close] on a connection whose channel is open are
    interleaved, the transport is released at most once. *)
Theorem racing_Close_releases_at_most_once (sched : list Who) (c : LiveConnection) :
  receiveStop c = false ->
  releases c <= releases (shared (race sched c)) <= S (releases c).
Proof.
  intros Hstop.
  assert (H : forall st, releaseBudget (releases c) st ->
                releaseBudget (releases c) (foldl raceStep st sched)).
  { induction sched as [|w sched IH]; intros st Hst; [done|].
    cbn [foldl]. by apply IH, releaseBudget_raceStep. }
  specialize (H {| first := AtLoad; second := AtLoad; shared := c |}).
  unfold race. unfold releaseBudget in H at 2.
  destruct (receiveStop (shared (foldl raceStep _ sched))).
  - destruct H as [H1 H2]; [|lia]. unfold releaseBudget. cbn. by rewrite Hstop.
  - destruct H as [H1 H2]; [|lia]. unfold releaseBudget. cbn. by rewrite Hstop.
Qed.

Lemma racing_Close_releases_at_most_once_witness :
  releases sampleSession
  <= releases (shared (race [G1; G2; G1; G1; G1; G2; G2] sampleSession))
  <= S (releases sampleSession).
Proof.
  apply (racing_Close_releases_at_most_once [G1; G2; G1; G1; G1; G2; G2] sampleSession).
  reflexivity.
Defined.

(** ** Runs of the quota commands *)

Lemma Contains_inside (pre x post : string) :
  GoLib.Contains (pre +:+ x +:+ post) x = true.
Proof. apply Contains_later, Contains_here. Qed.

Section QuotaRuns.

Import QuotaCommand.

Context {QuotaConfig : Type}.
Variable notFound : string.
Variable client : ClientCall -> option error.



(** Without a user, [quota users delete] is aimed at the default user
    quota, whatever the client flag says. *)
Theorem users_delete_without_user_ignores_client
    (quota : createQuotaPayload QuotaConfig) (args : list string) :
  User quota = "" ->
  ran_call (usersDelete notFound client quota args) = DeleteQuotaForAllUsers args.
Proof.
  intros Hu. unfold usersDelete. rewrite Hu. cbn [String.eqb negb].
  by destruct (client _).
Qed.

(** For [quota clients delete], an empty client, [all] and [*] are the
    same: the default client quota; any other client is that client. *)
Theorem clients_delete_target
    (quota : createQuotaPayload QuotaConfig) (args : list string) :
  ran_call (clientsDelete notFound client quota args)
  = if bool_decide (ClientID quota ∈ [""; "all"; "*"])
    then DeleteQuotaForAllClients args
    else DeleteQuotaForClient (ClientID quota) args.
Proof.
  unfold clientsDelete.
  destruct (String.eqb_spec (ClientID quota) "") as [->|H1]; cbn [negb andb].
  { by destruct (client _). }
  destruct (String.eqb_spec (ClientID quota) "all") as [->|H2]; cbn [negb andb].
  { by destruct (client _). }
  destruct (String.eqb_spec (ClientID quota) "*") as [->|H3]; cbn [negb andb].
  { by destruct (client _). }
  rewrite bool_decide_eq_false_2.
  - by destruct (client _).
  - rewrite !elem_of_cons, elem_of_nil. tauto.
Qed.

Hypothesis client_ok : forall call, client call = None.

(** A delete with no positional argument that succeeds says [deleted],
    for each of the six targets. *)
Theorem delete_without_arguments_says_deleted (quota : createQuotaPayload QuotaConfig) :
  (exists text, shown (usersDelete notFound client quota []) = [text]
                /\ GoLib.Contains text "deleted" = true)
  /\ (exists text, shown (clientsDelete notFound client quota []) = [text]
                   /\ GoLib.Contains text "deleted" = true).
Proof.
  split.
  - unfold usersDelete. rewrite !client_ok.
    destruct (String.eqb (User quota) ""); cbn [negb].
    { eexists. split; [reflexivity|]. reflexivity. }
    destruct (String.eqb (ClientID quota) ""); cbn [negb].
    { eexists. split; [reflexivity|]. rewrite actionMsgOf_nil.
      apply (Contains_later "Quota for user "), Contains_later. reflexivity. }
    destruct (String.eqb (ClientID quota) "all" || String.eqb (ClientID quota) "*").
    + eexists. split; [reflexivity|].
      apply (Contains_later "Quota for user "), Contains_later. reflexivity.
    + eexists. split; [reflexivity|].
      apply (Contains_later "Quota for user "), Contains_later.
      apply (Contains_inside " " "deleted" (" for client " +:+ ClientID quota)).
  - unfold clientsDelete. rewrite !client_ok.
    destruct (negb (String.eqb (ClientID quota) "") && negb (String.eqb (ClientID quota) "all")
              && negb (String.eqb (ClientID quota) "*")).
    + eexists. split; [reflexivity|]. rewrite actionMsgOf_nil.
      apply (Contains_later "Quota for client "), Contains_later. reflexivity.
    + eexists. split; [reflexivity|]. reflexivity.
Qed.

(** A delete with positional arguments that succeeds says [updated] when
    it is aimed at the default user quota, a user without a client, a
    client or the default client quota. *)
Theorem delete_with_arguments_says_updated
    (quota : createQuotaPayload QuotaConfig) (a : string) (args : list string) :
  (User quota = "" \/ ClientID quota = "" ->
   exists text, shown (usersDelete notFound client quota (a :: args)) = [text]
                /\ GoLib.Contains text "updated" = true)
  /\ (exists text, shown (clientsDelete notFound client quota (a :: args)) = [text]
                   /\ GoLib.Contains text "updated" = true).
Proof.
  split.
  - intros Hq. unfold usersDelete. rewrite !client_ok, actionMsgOf_cons.
    destruct (String.eqb_spec (User quota) "") as [Hu|Hu]; cbn [negb].
    { eexists. split; [reflexivity|]. reflexivity. }
    destruct Hq as [Hq|Hq]; [done|]. rewrite Hq. cbn [String.eqb negb].
    eexists. split; [reflexivity|].
    apply (Contains_later "Quota for user "), Contains_later. reflexivity.
  - unfold clientsDelete. rewrite !client_ok, actionMsgOf_cons.
    destruct (negb (String.eqb (ClientID quota) "") && negb (String.eqb (ClientID quota) "all")
              && negb (String.eqb (ClientID quota) "*")).
    + eexists. split; [reflexivity|].
      apply (Contains_later "Quota for client "), Contains_later. reflexivity.
    + eexists. split; [reflexivity|]. reflexivity.
Qed.

End QuotaRuns.

Lemma users_delete_without_user_ignores_client_witness :
  QuotaCommand.ran_call
    (QuotaCommand.usersDelete (QuotaConfig := unit) "not found" (fun _ => None)
       {| QuotaCommand.Config := tt; QuotaCommand.User := "";
          QuotaCommand.ClientID := "c1" |} [])
  = QuotaCommand.DeleteQuotaForAllUsers [].
Proof.
  apply (users_delete_without_user_ignores_client (QuotaConfig := unit)
           "not found" (fun _ => None)
           {| QuotaCommand.Config := tt; QuotaCommand.User := "";
              QuotaCommand.ClientID := "c1" |} []).
  reflexivity.
Defined.

Lemma delete_without_arguments_says_deleted_witness :
  exists text,
    QuotaCommand.shown
      (QuotaCommand.usersDelete (QuotaConfig := unit) "not found" (fun _ => None)
         {| QuotaCommand.Config := tt; QuotaCommand.User := "alice";
            QuotaCommand.ClientID := "c1" |} []) = [text]
    /\ GoLib.Contains text "deleted" = true.
Proof.
  apply (delete_without_arguments_says_deleted (QuotaConfig := unit)
           "not found" (fun _ => None) (fun _ => eq_refl)
           {| QuotaCommand.Config := tt; QuotaCommand.User := "alice";
              QuotaCommand.ClientID := "c1" |}).
Defined.

Lemma delete_with_arguments_says_updated_witness :
  exists text,
    QuotaCommand.shown
      (QuotaCommand.usersDelete (QuotaConfig := unit) "not found" (fun _ => None)
         {| QuotaCommand.Config := tt; QuotaCommand.User := "alice";
            QuotaCommand.ClientID := "" |} ["producer_byte_rate"]) = [text]
    /\ GoLib.Contains text "updated" = true.
Proof.
  apply (proj1 (delete_with_arguments_says_updated (QuotaConfig := unit)
                  "not found" (fun _ => None) (fun _ => eq_refl)
                  {| QuotaCommand.Config := tt; QuotaCommand.User := "alice";
                     QuotaCommand.ClientID := "" |} "producer_byte_rate" [])).
  right. reflexivity.
Defined.

Section QuotaSetRuns.

Context {QuotaConfig : Type}.
Variable CheckRequiredFlags : string * string -> option error.
Variable client : QuotaSet.ClientCall QuotaConfig -> option error.
Variable configRaw : string.


(** With the same flags, a set and a delete are aimed at the same target,
    for users and for clients. *)
Theorem set_and_delete_have_the_same_target
    (notFound : string) (clientD : QuotaCommand.ClientCall -> option error)
    (quota : QuotaCommand.createQuotaPayload QuotaConfig) (args : list string) :
  CheckRequiredFlags ("quota-config", configRaw) = None ->
  QuotaSet.targetOf <$> QuotaSet.ran_call
      (QuotaSet.usersSet CheckRequiredFlags client configRaw quota)
  = Some (QuotaCommand.targetOf
            (QuotaCommand.ran_call (QuotaCommand.usersDelete notFound clientD quota args)))
  /\ QuotaSet.targetOf <$> QuotaSet.ran_call
        (QuotaSet.clientsSet CheckRequiredFlags client configRaw quota)
     = Some (QuotaCommand.targetOf
               (QuotaCommand.ran_call
                  (QuotaCommand.clientsDelete notFound clientD quota args))).
Proof.
  intros Hcheck.
  unfold QuotaSet.usersSet, QuotaSet.clientsSet, QuotaSet.finish,
    QuotaCommand.usersDelete, QuotaCommand.clientsDelete.
  rewrite Hcheck. split.
  - repeat match goal with
           | |- context [String.eqb ?a ?b] => destruct (String.eqb a b)
           end; cbn [negb andb orb];
      repeat match goal with
             | |- context [client ?call] => destruct (client call)
             | |- context [clientD ?call] => destruct (clientD call)
             end; reflexivity.
  - repeat match goal with
           | |- context [String.eqb ?a ?b] => destruct (String.eqb a b)
           end; cbn [negb andb orb];
      repeat match goal with
             | |- context [client ?call] => destruct (client call)
             | |- context [clientD ?call] => destruct (clientD call)
             end; reflexivity.
Qed.

End QuotaSetRuns.

Lemma set_and_delete_have_the_same_target_witness :
  let quota := {| QuotaCommand.Config := tt; QuotaCommand.User := "alice";
                  QuotaCommand.ClientID := "*" |} in
  QuotaSet.targetOf <$> QuotaSet.ran_call
      (QuotaSet.usersSet (fun _ => None) (fun _ => None) "{}" quota)
  = Some (QuotaCommand.targetOf
            (QuotaCommand.ran_call
               (QuotaCommand.usersDelete "not found" (fun _ => None) quota [])))
  /\ QuotaSet.targetOf <$> QuotaSet.ran_call
        (QuotaSet.clientsSet (fun _ => None) (fun _ => None) "{}" quota)
     = Some (QuotaCommand.targetOf
               (QuotaCommand.ran_call
                  (QuotaCommand.clientsDelete "not found" (fun _ => None) quota []))).
Proof.
  apply (set_and_delete_have_the_same_target (QuotaConfig := unit)
           (fun _ => None) (fun _ => None) "{}" "not found" (fun _ => None)
           {| QuotaCommand.Config := tt; QuotaCommand.User := "alice";
              QuotaCommand.ClientID := "*" |} []).
  reflexivity.
Defined.

(** ** Close after a failed handshake *)

(** On the connection that a failed handshake leaves, the first [Close]
    panics on the nil transport after it has set the flag and closed the
    channel, so every later [Close] returns nil. *)
Theorem Close_twice_after_failed_dial
    (dial : Dialer) (cfg : LiveConfiguration) (e : error) (c : LiveConnection) (n : nat) :
  handshake dial cfg = Some (inr e) ->
  opened_conn (OpenLiveConnection dial cfg) = Some c ->
  (CloseTimes (S n) c).2
  = Panicked "invalid memory address or nil pointer dereference"
    :: replicate n (Returned None).
Proof.
  intros H Hc. apply handshake_dial in H as (c0 & Hconn & Hclosed & Hstop & Hdial & Hopen).
  rewrite Hopen in Hc. unfold start in Hc. rewrite Hdial in Hc.
  cbn [opened_conn started_conn] in Hc. injection Hc as <-.
  cbn [CloseTimes]. unfold Close at 1. rewrite Hclosed.
  cbn [N.ltb N.compare receiveStop set_closed set_receiveStop conn].
  rewrite Hstop, Hconn. by rewrite CloseTimes_closed.
Qed.

Lemma Close_twice_after_failed_dial_witness :
  (CloseTimes 3 failedSession).2
  = [Panicked "invalid memory address or nil pointer dereference";
     Returned None; Returned None].
Proof.
  apply (Close_twice_after_failed_dial refusing sampleConfig (OtherError "bad handshake")
           failedSession 2); reflexivity.
Defined.
